(** * Large-object proxy of the Aerospike Go client (large_object.go)

    A shallow embedding of [baseLargeObject]: its constructor
    [newLargeObject] and the six operations [destroy], [size], [getConfig],
    [setCapacity], [getCapacity] and [scan], each of which forwards one call
    to the client's [Execute] and converts the untyped reply.

    Go features and how they are modelled:
    - [interface{}] replies are a tagged union [GoAny] (dynamic type + value);
    - a type assertion [x.(T)] is a computation that panics on a mismatch;
    - [error] is [option GoError], [None] being Go's [nil];
    - the remote side is explicit state, threaded through a state-and-panic
      monad [M]; every call that reaches the executor is appended to a trace. *)

From Stdlib Require Import String List ZArith.
Import ListNotations.

Local Open Scope string_scope.
Local Open Scope Z_scope.
Local Open Scope list_scope.

Set Implicit Arguments.
Set Warnings "-register-all".

(** ** Values *)

(** Modelled from the spec: the [Value] interface and its constructors
    [NewStringValue], [NewNullValue] and [NewIntegerValue] are declared in
    another file of the package (value.go).  A Go interface value carries its
    dynamic type, so the three implementations used here are the three
    constructors of a tagged union.  Go's [int] is a machine integer; no
    arithmetic is performed on it in this file, so it is carried as a [Z]. *)
Inductive Value : Type :=
| NullValue
| StringValue (s : string)
| IntegerValue (i : Z).

Definition NewNullValue : Value := NullValue.
Definition NewStringValue (s : string) : Value := StringValue s.
Definition NewIntegerValue (i : Z) : Value := IntegerValue i.

(** Dynamically typed replies of the executor ([interface{}]).  A map or a
    slice held in an interface may itself be nil, hence the [option]:
    [AnyMap None] is a non-nil interface holding a nil map.  The proxy never
    looks inside a map, so its entries are kept as an association list. *)
Inductive GoAny : Type :=
| AnyNil
| AnyInt (i : Z)
| AnyString (s : string)
| AnyMap (m : option (list (GoAny * GoAny)))
| AnySlice (l : option (list GoAny))
| AnyOther (type_name : string).

Definition ConfigMap : Type := option (list (GoAny * GoAny)).
Definition Slice : Type := option (list GoAny).

(** [ret != nil] on an interface value. *)
Definition is_nil (v : GoAny) : bool :=
  match v with
  | AnyNil => true
  | _ => false
  end.

(** Static types named in the type assertions of this file. *)
Inductive GoType : Type :=
| TInt
| TMap
| TSlice.

(** A failed type assertion: the value found and the type asked for. *)
Inductive GoPanic : Type :=
| InterfaceConversion (found : GoAny) (wanted : GoType).

(** ** The capability interface *)

(** [LargeObject] as far as the base uses it: the package name of the kind. *)
Class LargeObject (T : Type) : Type := {
  packageName : T -> string
}.

(** Modelled from the spec: the concrete kinds (list, stack, set, map) live in
    other files of the package; each one supplies only its package name. *)
Inductive LargeObjectKind : Type :=
| LargeList
| LargeStack
| LargeSet
| LargeMap.

#[export] Instance LargeObjectKind_LargeObject : LargeObject LargeObjectKind := {
  packageName k :=
    match k with
    | LargeList => "llist"
    | LargeStack => "lstack"
    | LargeSet => "lset"
    | LargeMap => "lmap"
    end
}.

(** ** Outcomes and the execution monad *)

Inductive Outcome (A : Type) : Type :=
| Returned (a : A)
| Panicked (p : GoPanic).

Arguments Returned {A} a.
Arguments Panicked {A} p.

Section Model.

(** The collaborators are opaque: the client, the policy and the key are
    only passed along, and an error value is never inspected. *)
Context {Client WritePolicy Key GoError : Type}.

(** State of the remote side, owned by the executor. *)
Context {Remote : Type}.

Definition error : Type := option GoError.

(** One invocation of [Client.Execute]: receiver, then the arguments in
    the order of the Go signature (the variadic tail is [call_args]). *)
Record ExecCall : Type := mkExecCall {
  call_client : Client;
  call_policy : WritePolicy;
  call_key : Key;
  call_package : string;
  call_function : string;
  call_args : list Value
}.

(** Behaviour of the remote executor: a reply and a new remote state.
    The executor is taken to return; what happens inside it is not part
    of this file. *)
Definition Backend : Type := ExecCall -> Remote -> (GoAny * error) * Remote.

Record World : Type := mkWorld {
  remote : Remote;
  trace : list ExecCall
}.

Definition M (A : Type) : Type := World -> Outcome A * World.

Definition mret {A : Type} (a : A) : M A := fun w => (Returned a, w).

Definition mbind {A B : Type} (m : M A) (k : A -> M B) : M B :=
  fun w =>
    match m w with
    | (Returned a, w') => k a w'
    | (Panicked p, w') => (Panicked p, w')
    end.

Definition panic {A : Type} (p : GoPanic) : M A := fun w => (Panicked p, w).

(** The calls an action adds to the trace when run from [w]. *)
Definition calls_made {A : Type} (m : M A) (w : World) : list ExecCall :=
  skipn (length (trace w)) (trace (snd (m w))).

(** An action that only converts a reply leaves the world alone. *)
Definition pure_action {A : Type} (m : M A) : Prop :=
  forall w, snd (m w) = w.

Variable backend : Backend.

(** [client.Execute(policy, key, packageName, functionName, args...)] *)
Definition Execute (c : Client) (p : WritePolicy) (k : Key)
           (pkg fn : string) (args : list Value) : M (GoAny * error) :=
  fun w =>
    let call := mkExecCall c p k pkg fn args in
    let '(reply, r') := backend call (remote w) in
    (Returned reply, {| remote := r'; trace := trace w ++ [call] |}).

(** [v.(int)], [v.(map[interface{}]interface{})], [v.([]interface{})] *)
Definition assert_int (v : GoAny) : M Z :=
  match v with
  | AnyInt i => mret i
  | _ => panic (InterfaceConversion v TInt)
  end.

Definition assert_map (v : GoAny) : M ConfigMap :=
  match v with
  | AnyMap m => mret m
  | _ => panic (InterfaceConversion v TMap)
  end.

Definition assert_slice (v : GoAny) : M Slice :=
  match v with
  | AnySlice l => mret l
  | _ => panic (InterfaceConversion v TSlice)
  end.

End Model.

Arguments ExecCall : clear implicits.
Arguments Backend : clear implicits.
Arguments World : clear implicits.
Arguments error : clear implicits.

Declare Scope go_scope.
Delimit Scope go_scope with go.
Notation "x <- c ;; k" := (mbind c (fun x => k))
  (at level 61, c at next level, right associativity) : go_scope.
Notation "' pat <- c ;; k" := (mbind c (fun x => match x with pat => k end))
  (at level 61, pat pattern, c at next level, right associativity) : go_scope.

(** ** The handle and its operations *)

Section LargeObjectBase.

Context {Client WritePolicy Key GoError Remote : Type}.

Record baseLargeObject : Type := mkBaseLargeObject {
  client : Client;
  policy : WritePolicy;
  key : Key;
  binName : Value;
  userModule : Value
}.

Definition newLargeObject (client : Client) (policy : WritePolicy) (key : Key)
           (binName : string) (userModule : string) : baseLargeObject :=
  {| client := client;
     policy := policy;
     key := key;
     binName := NewStringValue binName;
     userModule := if String.eqb userModule "" then NewNullValue
                   else NewStringValue userModule |}.

Variable backend : Backend Client WritePolicy Key GoError Remote.

Local Abbreviation Exec := (Execute backend).
Local Abbreviation Act A := (@M Client WritePolicy Key Remote A).

Context {T : Type} `{LargeObject T}.

Local Open Scope go_scope.

Definition destroy (lo : baseLargeObject) (ifc : T) : Act (error GoError) :=
  '(_, err) <- Exec lo.(client) lo.(policy) lo.(key) (packageName ifc)
                    "destroy" [lo.(binName)] ;;
  mret err.

Definition size (lo : baseLargeObject) (ifc : T) : Act (Z * error GoError) :=
  '(ret, err) <- Exec lo.(client) lo.(policy) lo.(key) (packageName ifc)
                      "size" [lo.(binName)] ;;
  match err with
  | Some _ => mret (-1, err)
  | None =>
      if negb (is_nil ret) then
        i <- assert_int ret ;;
        mret (i, None)
      else mret (0, None)
  end.

Definition getConfig (lo : baseLargeObject) (ifc : T)
  : Act (ConfigMap * error GoError) :=
  '(res, err) <- Exec lo.(client) lo.(policy) lo.(key) (packageName ifc)
                      "get_config" [lo.(binName)] ;;
  match err with
  | Some _ => mret (None, err)
  | None =>
      if is_nil res then mret (None, None)
      else
        m <- assert_map res ;;
        mret (m, err)
  end.

Definition setCapacity (lo : baseLargeObject) (ifc : T) (capacity : Z)
  : Act (error GoError) :=
  '(_, err) <- Exec lo.(client) lo.(policy) lo.(key) (packageName ifc)
                    "set_capacity" [lo.(binName); NewIntegerValue capacity] ;;
  mret err.

Definition getCapacity (lo : baseLargeObject) (ifc : T)
  : Act (Z * error GoError) :=
  '(ret, err) <- Exec lo.(client) lo.(policy) lo.(key) (packageName ifc)
                      "get_capacity" [lo.(binName)] ;;
  match err with
  | Some _ => mret (-1, err)
  | None =>
      i <- assert_int ret ;;
      mret (i, None)
  end.

Definition scan (lo : baseLargeObject) (ifc : T) : Act (Slice * error GoError) :=
  '(ret, err) <- Exec lo.(client) lo.(policy) lo.(key) (packageName ifc)
                      "scan" [lo.(binName)] ;;
  match err with
  | Some _ => mret (None, err)
  | None =>
      if is_nil ret then mret (Some [], None)
      else
        l <- assert_slice ret ;;
        mret (l, None)
  end.

End LargeObjectBase.

Arguments baseLargeObject : clear implicits.

(** ** Test doubles for the executor

    Small executors over concrete collaborators (no client state, no policy,
    keys and errors as strings), used to run the operations on examples.
    The remote state is the capacity last stored, if any. *)

Definition StubBackend : Type := Backend unit unit string string (option Z).
Definition StubWorld : Type := World unit unit string (option Z).
Definition StubHandle : Type := baseLargeObject unit unit string.

(** Replies [(nil, e)] to every call. *)
Definition failing_executor (e : string) : StubBackend :=
  fun _ r => ((AnyNil, Some e), r).

(** Replies [(nil, nil)] to every call. *)
Definition absent_executor : StubBackend :=
  fun _ r => ((AnyNil, None), r).

(** Replies with a string where every operation expects something else. *)
Definition misshapen_executor : StubBackend :=
  fun _ r => ((AnyString "seven", None), r).

(** Replies [(v, nil)] to every call. *)
Definition constant_executor (v : GoAny) : StubBackend :=
  fun _ r => ((v, None), r).

(** Stores the capacity on "set_capacity" and echoes it on "get_capacity". *)
Definition capacity_executor : StubBackend :=
  fun call r =>
    if String.eqb (call_function call) "set_capacity" then
      match call_args call with
      | [_; IntegerValue n] => ((AnyNil, None), Some n)
      | _ => ((AnyNil, Some "bad arguments"), r)
      end
    else if String.eqb (call_function call) "get_capacity" then
      match r with
      | Some n => ((AnyInt n, None), r)
      | None => ((AnyNil, None), r)
      end
    else ((AnyNil, None), r).

Definition fresh_world : StubWorld := {| remote := None; trace := [] |}.

Definition mylist : StubHandle := newLargeObject tt tt "rec1" "mylist" "".

(** The world reached from [fresh_world] by one call of a list-kind handle
    on [mylist] that leaves the remote state as it was. *)
Definition after_call (fn : string) (args : list Value) : StubWorld :=
  {| remote := None; trace := [mkExecCall tt tt "rec1" "llist" fn args] |}.

(** * Properties *)

(** ** Facts about the monad and the trace *)

Section MonadFacts.

Context {Client WritePolicy Key GoError Remote : Type}.
Variable backend : Backend Client WritePolicy Key GoError Remote.

Lemma mbind_returned {A B : Type}
      (m : M A) (k : A -> M B) (w w' : World Client WritePolicy Key Remote) (a : A) :
  m w = (Returned a, w') -> mbind m k w = k a w'.
Proof. intros Hm. unfold mbind. rewrite Hm. reflexivity. Qed.

Lemma Execute_trace c p k pkg fn args (w : World Client WritePolicy Key Remote) :
  trace (snd (Execute backend c p k pkg fn args w))
  = trace w ++ [mkExecCall c p k pkg fn args].
Proof.
  unfold Execute.
  destruct (backend (mkExecCall c p k pkg fn args) (remote w)) as [reply r'].
  reflexivity.
Qed.

Lemma Execute_returns c p k pkg fn args (w : World Client WritePolicy Key Remote) :
  exists reply, fst (Execute backend c p k pkg fn args w) = Returned reply.
Proof.
  unfold Execute.
  destruct (backend (mkExecCall c p k pkg fn args) (remote w)) as [reply r'].
  exists reply. reflexivity.
Qed.

Lemma pure_mret {A : Type} (a : A) :
  pure_action (mret a : @M Client WritePolicy Key Remote A).
Proof. intros w. reflexivity. Qed.

Lemma pure_panic {A : Type} (p : GoPanic) :
  pure_action (panic p : @M Client WritePolicy Key Remote A).
Proof. intros w. reflexivity. Qed.

Lemma pure_mbind {A B : Type}
      (m : @M Client WritePolicy Key Remote A) (k : A -> M B) :
  pure_action m -> (forall a, pure_action (k a)) -> pure_action (mbind m k).
Proof.
  intros Hm Hk w. unfold mbind.
  specialize (Hm w). destruct (m w) as [[a | p] w1]; simpl in Hm; subst w1.
  - apply Hk.
  - reflexivity.
Qed.

Lemma pure_assert_int v :
  pure_action (assert_int v : @M Client WritePolicy Key Remote _).
Proof. destruct v; first [apply pure_mret | apply pure_panic]. Qed.

Lemma pure_assert_map v :
  pure_action (assert_map v : @M Client WritePolicy Key Remote _).
Proof. destruct v; first [apply pure_mret | apply pure_panic]. Qed.

Lemma pure_assert_slice v :
  pure_action (assert_slice v : @M Client WritePolicy Key Remote _).
Proof. destruct v; first [apply pure_mret | apply pure_panic]. Qed.

(** One call to the executor followed by a pure conversion of its reply
    extends the trace by exactly that call. *)
Lemma call_then_pure_trace {A : Type} c p k pkg fn args
      (cont : GoAny * error GoError -> M A) (w : World Client WritePolicy Key Remote) :
  (forall reply, pure_action (cont reply)) ->
  trace (snd (mbind (Execute backend c p k pkg fn args) cont w))
  = trace w ++ [mkExecCall c p k pkg fn args].
Proof.
  intros Hpure. unfold mbind.
  pose proof (Execute_trace c p k pkg fn args w) as Htr.
  destruct (Execute_returns c p k pkg fn args w) as [reply Hret].
  destruct (Execute backend c p k pkg fn args w) as [o w1].
  simpl in Htr, Hret. subst o.
  rewrite (Hpure reply w1). exact Htr.
Qed.

Lemma calls_made_app {A : Type} (m : M A) (w : World Client WritePolicy Key Remote) l :
  trace (snd (m w)) = trace w ++ l -> calls_made m w = l.
Proof.
  intros Htr. unfold calls_made. rewrite Htr.
  rewrite skipn_app, skipn_all, Nat.sub_diag. reflexivity.
Qed.

End MonadFacts.

Create HintDb go_pure.
#[local] Hint Resolve pure_mret pure_panic pure_assert_int pure_assert_map
  pure_assert_slice : go_pure.

Ltac prove_pure :=
  repeat first
    [ progress intros
    | apply pure_mbind
    | match goal with
      | |- pure_action (match ?x with _ => _ end) => destruct x
      | |- pure_action (if ?b then _ else _) => destruct b
      end
    | solve [auto with go_pure] ].

(** Runs the call an operation starts with, given the executor's reply. *)
Ltac step_call Hexec := erewrite mbind_returned by exact Hexec.

(** ** The operations *)

Section Operations.

Context {Client WritePolicy Key GoError Remote : Type}.
Variable backend : Backend Client WritePolicy Key GoError Remote.
Context {T : Type} `{LargeObject T}.

Implicit Types (lo : baseLargeObject Client WritePolicy Key) (ifc : T).
Implicit Types (w : World Client WritePolicy Key Remote).
Implicit Types (e : GoError) (ret : GoAny).

(** Each operation is one call to the executor followed by a pure
    conversion, so it extends the trace by exactly that call. *)
Lemma destroy_trace lo ifc w :
  trace (snd (destroy backend lo ifc w))
  = trace w ++ [mkExecCall (client lo) (policy lo) (key lo) (packageName ifc)
                           "destroy" [binName lo]].
Proof. unfold destroy. apply call_then_pure_trace. prove_pure. Qed.

Lemma size_trace lo ifc w :
  trace (snd (size backend lo ifc w))
  = trace w ++ [mkExecCall (client lo) (policy lo) (key lo) (packageName ifc)
                           "size" [binName lo]].
Proof. unfold size. apply call_then_pure_trace. prove_pure. Qed.

Lemma getConfig_trace lo ifc w :
  trace (snd (getConfig backend lo ifc w))
  = trace w ++ [mkExecCall (client lo) (policy lo) (key lo) (packageName ifc)
                           "get_config" [binName lo]].
Proof. unfold getConfig. apply call_then_pure_trace. prove_pure. Qed.

Lemma setCapacity_trace lo ifc (capacity : Z) w :
  trace (snd (setCapacity backend lo ifc capacity w))
  = trace w ++ [mkExecCall (client lo) (policy lo) (key lo) (packageName ifc)
                           "set_capacity"
                           [binName lo; NewIntegerValue capacity]].
Proof. unfold setCapacity. apply call_then_pure_trace. prove_pure. Qed.

Lemma getCapacity_trace lo ifc w :
  trace (snd (getCapacity backend lo ifc w))
  = trace w ++ [mkExecCall (client lo) (policy lo) (key lo) (packageName ifc)
                           "get_capacity" [binName lo]].
Proof. unfold getCapacity. apply call_then_pure_trace. prove_pure. Qed.

Lemma scan_trace lo ifc w :
  trace (snd (scan backend lo ifc w))
  = trace w ++ [mkExecCall (client lo) (policy lo) (key lo) (packageName ifc)
                           "scan" [binName lo]].
Proof. unfold scan. apply call_then_pure_trace. prove_pure. Qed.

(** An integer returned next to an error comes from the error branch. *)
Lemma size_error_integer lo ifc w w' (n : Z) e :
  size backend lo ifc w = (Returned (n, Some e), w') -> n = -1.
Proof.
  unfold size, mbind, Execute.
  destruct (backend _ (remote w)) as [[ret [e0 |]] r']; simpl.
  - intros Hrun. inversion Hrun. reflexivity.
  - destruct ret; simpl; intros Hrun; inversion Hrun.
Qed.

Lemma getCapacity_error_integer lo ifc w w' (n : Z) e :
  getCapacity backend lo ifc w = (Returned (n, Some e), w') -> n = -1.
Proof.
  unfold getCapacity, mbind, Execute.
  destruct (backend _ (remote w)) as [[ret [e0 |]] r']; simpl.
  - intros Hrun. inversion Hrun. reflexivity.
  - destruct ret; simpl; intros Hrun; inversion Hrun.
Qed.

(** C1. Whatever the operation, when the executor replies with a non-nil
    error, the operation returns (it does not panic, whatever accompanies
    the error) and the error it returns is that same value; the world is
    the one the executor left, so nothing was retried or recovered. *)
Theorem executor_error_returned_unchanged lo ifc (capacity : Z) w w' ret e :
  (Execute backend (client lo) (policy lo) (key lo) (packageName ifc)
           "destroy" [binName lo] w = (Returned (ret, Some e), w') ->
   destroy backend lo ifc w = (Returned (Some e), w'))
  /\
  (Execute backend (client lo) (policy lo) (key lo) (packageName ifc)
           "size" [binName lo] w = (Returned (ret, Some e), w') ->
   exists n, size backend lo ifc w = (Returned (n, Some e), w'))
  /\
  (Execute backend (client lo) (policy lo) (key lo) (packageName ifc)
           "get_config" [binName lo] w = (Returned (ret, Some e), w') ->
   exists m, getConfig backend lo ifc w = (Returned (m, Some e), w'))
  /\
  (Execute backend (client lo) (policy lo) (key lo) (packageName ifc)
           "set_capacity" [binName lo; NewIntegerValue capacity] w
   = (Returned (ret, Some e), w') ->
   setCapacity backend lo ifc capacity w = (Returned (Some e), w'))
  /\
  (Execute backend (client lo) (policy lo) (key lo) (packageName ifc)
           "get_capacity" [binName lo] w = (Returned (ret, Some e), w') ->
   exists n, getCapacity backend lo ifc w = (Returned (n, Some e), w'))
  /\
  (Execute backend (client lo) (policy lo) (key lo) (packageName ifc)
           "scan" [binName lo] w = (Returned (ret, Some e), w') ->
   exists l, scan backend lo ifc w = (Returned (l, Some e), w')).
Proof.
  repeat split; intros Hexec.
  - unfold destroy. step_call Hexec. reflexivity.
  - exists (-1). unfold size. step_call Hexec. reflexivity.
  - exists None. unfold getConfig. step_call Hexec. reflexivity.
  - unfold setCapacity. step_call Hexec. reflexivity.
  - exists (-1). unfold getCapacity. step_call Hexec. reflexivity.
  - exists None. unfold scan. step_call Hexec. reflexivity.
Qed.

(** C2. size: when the executor replies with a nil result and a nil error,
    size returns 0 and a nil error. *)
Theorem size_absent_is_zero lo ifc w w' :
  Execute backend (client lo) (policy lo) (key lo) (packageName ifc)
          "size" [binName lo] w = (Returned (AnyNil, None), w') ->
  size backend lo ifc w = (Returned (0, None), w').
Proof.
  intros Hexec. unfold size. step_call Hexec. reflexivity.
Qed.

(** C3. getCapacity: when the executor replies with a nil result and a nil
    error, the conversion to int panics: getCapacity returns nothing at
    all, neither a defaulted 0 nor an error value. *)
Theorem getCapacity_absent_panics lo ifc w w' :
  Execute backend (client lo) (policy lo) (key lo) (packageName ifc)
          "get_capacity" [binName lo] w = (Returned (AnyNil, None), w') ->
  getCapacity backend lo ifc w = (Panicked (InterfaceConversion AnyNil TInt), w')
  /\ forall (n : Z) (err : error GoError),
      fst (getCapacity backend lo ifc w) <> Returned (n, err).
Proof.
  intros Hexec.
  assert (Hrun : getCapacity backend lo ifc w
                 = (Panicked (InterfaceConversion AnyNil TInt), w')).
  { unfold getCapacity. step_call Hexec. reflexivity. }
  split; [exact Hrun |].
  intros n err. rewrite Hrun. simpl. discriminate.
Qed.

(** C4. getConfig: when the executor replies with a nil result and a nil
    error, getConfig returns the nil map, which is not the empty map,
    and a nil error. *)
Theorem getConfig_absent_is_nil_map lo ifc w w' :
  Execute backend (client lo) (policy lo) (key lo) (packageName ifc)
          "get_config" [binName lo] w = (Returned (AnyNil, None), w') ->
  exists m : ConfigMap,
    getConfig backend lo ifc w = (Returned (m, None), w')
    /\ m = None /\ m <> Some [].
Proof.
  intros Hexec. exists None. split; [| split; [reflexivity | discriminate]].
  unfold getConfig. step_call Hexec. reflexivity.
Qed.

(** C5. scan: when the executor replies with a nil result and a nil error,
    scan returns the empty slice, which is not the nil slice, and a nil
    error; getConfig on the same kind of reply returns the nil map. *)
Theorem scan_absent_is_empty_slice lo ifc w w' :
  Execute backend (client lo) (policy lo) (key lo) (packageName ifc)
          "scan" [binName lo] w = (Returned (AnyNil, None), w') ->
  exists l : Slice,
    scan backend lo ifc w = (Returned (l, None), w')
    /\ l = Some [] /\ l <> None.
Proof.
  intros Hexec. exists (Some []). split; [| split; [reflexivity | discriminate]].
  unfold scan. step_call Hexec. reflexivity.
Qed.

(** C7. Every operation makes exactly one call to the executor: on the
    handle's client, with the handle's policy and key, the package name of
    the kind, its own fixed function name, and the stored bin as the only
    argument; setCapacity passes the capacity, as an integer value, after
    the bin.  This holds whatever the executor replies. *)
Theorem operations_call_executor_as_fixed lo ifc (capacity : Z) w :
  trace (snd (destroy backend lo ifc w))
  = trace w ++ [mkExecCall (client lo) (policy lo) (key lo) (packageName ifc)
                           "destroy" [binName lo]]
  /\
  trace (snd (size backend lo ifc w))
  = trace w ++ [mkExecCall (client lo) (policy lo) (key lo) (packageName ifc)
                           "size" [binName lo]]
  /\
  trace (snd (getConfig backend lo ifc w))
  = trace w ++ [mkExecCall (client lo) (policy lo) (key lo) (packageName ifc)
                           "get_config" [binName lo]]
  /\
  trace (snd (setCapacity backend lo ifc capacity w))
  = trace w ++ [mkExecCall (client lo) (policy lo) (key lo) (packageName ifc)
                           "set_capacity" [binName lo; IntegerValue capacity]]
  /\
  trace (snd (getCapacity backend lo ifc w))
  = trace w ++ [mkExecCall (client lo) (policy lo) (key lo) (packageName ifc)
                           "get_capacity" [binName lo]]
  /\
  trace (snd (scan backend lo ifc w))
  = trace w ++ [mkExecCall (client lo) (policy lo) (key lo) (packageName ifc)
                           "scan" [binName lo]].
Proof.
  repeat split.
  - apply destroy_trace.
  - apply size_trace.
  - apply getConfig_trace.
  - apply setCapacity_trace.
  - apply getCapacity_trace.
  - apply scan_trace.
Qed.

(** C9. When the executor replies with a non-nil error, size and
    getCapacity return -1 next to that error; hence whenever either of them
    returns a non-nil error, the integer beside it is -1. *)
Theorem integer_sentinel_on_error lo ifc w w' ret e (n : Z) :
  (Execute backend (client lo) (policy lo) (key lo) (packageName ifc)
           "size" [binName lo] w = (Returned (ret, Some e), w') ->
   size backend lo ifc w = (Returned (-1, Some e), w'))
  /\
  (Execute backend (client lo) (policy lo) (key lo) (packageName ifc)
           "get_capacity" [binName lo] w = (Returned (ret, Some e), w') ->
   getCapacity backend lo ifc w = (Returned (-1, Some e), w'))
  /\
  (size backend lo ifc w = (Returned (n, Some e), w') -> n = -1)
  /\
  (getCapacity backend lo ifc w = (Returned (n, Some e), w') -> n = -1).
Proof.
  repeat split.
  - intros Hexec. unfold size. step_call Hexec. reflexivity.
  - intros Hexec. unfold getCapacity. step_call Hexec. reflexivity.
  - apply size_error_integer.
  - apply getCapacity_error_integer.
Qed.

End Operations.

(** ** Determinism of marshaling *)

Ltac operation_trace :=
  first [ apply destroy_trace | apply size_trace | apply getConfig_trace
        | apply setCapacity_trace | apply getCapacity_trace | apply scan_trace ].

Ltac same_calls :=
  etransitivity;
  [ apply calls_made_app; operation_trace
  | symmetry; apply calls_made_app; operation_trace ].

Section Determinism.

Context {Client WritePolicy Key GoError Remote : Type}.
Variables backend backend' : Backend Client WritePolicy Key GoError Remote.
Context {T : Type} `{LargeObject T}.

Implicit Types (ifc : T) (w : World Client WritePolicy Key Remote).

(** C8. Two handles built from the same client, policy, key, bin name and
    module name make the same calls to the executor in every operation,
    even when they run against executors that behave differently and from
    different states of the world. *)
Theorem marshaling_is_deterministic
        (c : Client) (p : WritePolicy) (k : Key) (bin module : string)
        ifc (capacity : Z) w1 w2 :
  let lo1 := newLargeObject c p k bin module in
  let lo2 := newLargeObject c p k bin module in
  calls_made (destroy backend lo1 ifc) w1 = calls_made (destroy backend' lo2 ifc) w2
  /\ calls_made (size backend lo1 ifc) w1 = calls_made (size backend' lo2 ifc) w2
  /\ calls_made (getConfig backend lo1 ifc) w1
     = calls_made (getConfig backend' lo2 ifc) w2
  /\ calls_made (setCapacity backend lo1 ifc capacity) w1
     = calls_made (setCapacity backend' lo2 ifc capacity) w2
  /\ calls_made (getCapacity backend lo1 ifc) w1
     = calls_made (getCapacity backend' lo2 ifc) w2
  /\ calls_made (scan backend lo1 ifc) w1 = calls_made (scan backend' lo2 ifc) w2.
Proof.
  intros lo1 lo2. repeat split; same_calls.
Qed.

End Determinism.

(** ** The constructor *)

Section Constructor.

Context {Client WritePolicy Key : Type}.
Implicit Types (c : Client) (p : WritePolicy) (k : Key).

Lemma newLargeObject_context c p k (bin module : string) :
  client (newLargeObject c p k bin module) = c
  /\ policy (newLargeObject c p k bin module) = p
  /\ key (newLargeObject c p k bin module) = k.
Proof. repeat split. Qed.

Lemma userModule_nonempty c p k (bin module : string) :
  module <> "" ->
  userModule (newLargeObject c p k bin module) = StringValue module.
Proof.
  intros Hne. unfold newLargeObject; simpl.
  destruct (String.eqb_spec module "") as [Heq | _].
  - contradiction.
  - reflexivity.
Qed.

(** C6. A handle built with the empty module name stores the null value;
    a handle built with a non-empty module name stores that name as a
    string value, and the two stored values differ. *)
Theorem empty_module_is_null c p k (bin module : string) :
  module <> "" ->
  userModule (newLargeObject c p k bin "") = NullValue
  /\ userModule (newLargeObject c p k bin module) = StringValue module
  /\ userModule (newLargeObject c p k bin "")
     <> userModule (newLargeObject c p k bin module).
Proof.
  intros Hne. rewrite (userModule_nonempty c p k bin Hne).
  repeat split. simpl. discriminate.
Qed.

(** C10. The bin name is stored as a string value whatever it is: the empty
    bin name is stored as the empty string value, never as the null value,
    while the empty module name of the same handle is stored as null. *)
Theorem bin_name_always_string c p k (bin module : string) :
  binName (newLargeObject c p k bin module) = StringValue bin
  /\ binName (newLargeObject c p k "" module) = StringValue ""
  /\ binName (newLargeObject c p k bin module) <> NullValue
  /\ userModule (newLargeObject c p k "" "") = NullValue.
Proof.
  repeat split. simpl. discriminate.
Qed.

End Constructor.

(** ** The operations on examples *)

(** Destroy against an executor that replies (nil, "bin not found"). *)
Example destroy_bin_not_found :
  fst (destroy (failing_executor "bin not found") mylist LargeList fresh_world)
  = Returned (Some "bin not found").
Proof. reflexivity. Qed.

(** SetCapacity(100) then GetCapacity() against the echoing executor. *)
Example set_then_get_capacity :
  let w1 := snd (setCapacity capacity_executor mylist LargeList 100 fresh_world) in
  fst (setCapacity capacity_executor mylist LargeList 100 fresh_world) = Returned None
  /\ fst (getCapacity capacity_executor mylist LargeList w1) = Returned (100, None)
  /\ trace (snd (getCapacity capacity_executor mylist LargeList w1))
     = [ mkExecCall tt tt "rec1" "llist" "set_capacity"
                    [StringValue "mylist"; IntegerValue 100];
         mkExecCall tt tt "rec1" "llist" "get_capacity" [StringValue "mylist"] ].
Proof. repeat split. Qed.

(** A reply of an unexpected shape makes size panic as well. *)
Example size_wrong_shape_panics :
  fst (size misshapen_executor mylist LargeList fresh_world)
  = Panicked (InterfaceConversion (AnyString "seven") TInt).
Proof. reflexivity. Qed.

(** ** The statements at concrete inputs *)

Lemma executor_error_returned_unchanged_witness :
  destroy (failing_executor "bin not found") mylist LargeList fresh_world
  = (Returned (Some "bin not found"), after_call "destroy" [StringValue "mylist"])
  /\ (exists n, size (failing_executor "bin not found") mylist LargeList fresh_world
                = (Returned (n, Some "bin not found"),
                   after_call "size" [StringValue "mylist"]))
  /\ (exists m, getConfig (failing_executor "bin not found") mylist LargeList fresh_world
                = (Returned (m, Some "bin not found"),
                   after_call "get_config" [StringValue "mylist"]))
  /\ setCapacity (failing_executor "bin not found") mylist LargeList 100 fresh_world
     = (Returned (Some "bin not found"),
        after_call "set_capacity" [StringValue "mylist"; IntegerValue 100])
  /\ (exists n, getCapacity (failing_executor "bin not found") mylist LargeList fresh_world
                = (Returned (n, Some "bin not found"),
                   after_call "get_capacity" [StringValue "mylist"]))
  /\ (exists l, scan (failing_executor "bin not found") mylist LargeList fresh_world
                = (Returned (l, Some "bin not found"),
                   after_call "scan" [StringValue "mylist"])).
Proof.
  pose proof (fun w' =>
    executor_error_returned_unchanged (failing_executor "bin not found")
      mylist LargeList 100 fresh_world w' AnyNil "bin not found") as Hclaim.
  repeat apply conj.
  - destruct (Hclaim (after_call "destroy" [StringValue "mylist"]))
      as (Hop & _). apply Hop. reflexivity.
  - destruct (Hclaim (after_call "size" [StringValue "mylist"]))
      as (_ & Hop & _). apply Hop. reflexivity.
  - destruct (Hclaim (after_call "get_config" [StringValue "mylist"]))
      as (_ & _ & Hop & _). apply Hop. reflexivity.
  - destruct (Hclaim (after_call "set_capacity" [StringValue "mylist"; IntegerValue 100]))
      as (_ & _ & _ & Hop & _). apply Hop. reflexivity.
  - destruct (Hclaim (after_call "get_capacity" [StringValue "mylist"]))
      as (_ & _ & _ & _ & Hop & _). apply Hop. reflexivity.
  - destruct (Hclaim (after_call "scan" [StringValue "mylist"]))
      as (_ & _ & _ & _ & _ & Hop). apply Hop. reflexivity.
Defined.

Lemma size_absent_is_zero_witness :
  Execute absent_executor tt tt "rec1" "llist" "size" [StringValue "mylist"] fresh_world
  = (Returned (AnyNil, None), after_call "size" [StringValue "mylist"])
  /\ size absent_executor mylist LargeList fresh_world
     = (Returned (0, None), after_call "size" [StringValue "mylist"]).
Proof.
  split; [reflexivity |].
  apply (size_absent_is_zero absent_executor mylist LargeList fresh_world).
  reflexivity.
Defined.

Lemma getCapacity_absent_panics_witness :
  Execute absent_executor tt tt "rec1" "llist" "get_capacity" [StringValue "mylist"]
          fresh_world
  = (Returned (AnyNil, None), after_call "get_capacity" [StringValue "mylist"])
  /\ getCapacity absent_executor mylist LargeList fresh_world
     = (Panicked (InterfaceConversion AnyNil TInt),
        after_call "get_capacity" [StringValue "mylist"])
  /\ forall (n : Z) (err : error string),
      fst (getCapacity absent_executor mylist LargeList fresh_world)
      <> Returned (n, err).
Proof.
  split; [reflexivity |].
  apply (getCapacity_absent_panics absent_executor mylist LargeList fresh_world).
  reflexivity.
Defined.

Lemma getConfig_absent_is_nil_map_witness :
  Execute absent_executor tt tt "rec1" "llist" "get_config" [StringValue "mylist"]
          fresh_world
  = (Returned (AnyNil, None), after_call "get_config" [StringValue "mylist"])
  /\ exists m : ConfigMap,
      getConfig absent_executor mylist LargeList fresh_world
      = (Returned (m, None), after_call "get_config" [StringValue "mylist"])
      /\ m = None /\ m <> Some [].
Proof.
  split; [reflexivity |].
  apply (getConfig_absent_is_nil_map absent_executor mylist LargeList fresh_world).
  reflexivity.
Defined.

Lemma scan_absent_is_empty_slice_witness :
  Execute absent_executor tt tt "rec1" "llist" "scan" [StringValue "mylist"] fresh_world
  = (Returned (AnyNil, None), after_call "scan" [StringValue "mylist"])
  /\ exists l : Slice,
      scan absent_executor mylist LargeList fresh_world
      = (Returned (l, None), after_call "scan" [StringValue "mylist"])
      /\ l = Some [] /\ l <> None.
Proof.
  split; [reflexivity |].
  apply (scan_absent_is_empty_slice absent_executor mylist LargeList fresh_world).
  reflexivity.
Defined.

Lemma empty_module_is_null_witness :
  "init" <> ""
  /\ userModule (newLargeObject tt tt "rec1" "mylist" "") = NullValue
  /\ userModule (newLargeObject tt tt "rec1" "mylist" "init") = StringValue "init"
  /\ userModule (newLargeObject tt tt "rec1" "mylist" "")
     <> userModule (newLargeObject tt tt "rec1" "mylist" "init").
Proof.
  assert (Hne : "init" <> "") by discriminate.
  split; [exact Hne |].
  apply (empty_module_is_null tt tt "rec1" "mylist" Hne).
Defined.

Lemma integer_sentinel_on_error_witness :
  size (failing_executor "timeout") mylist LargeList fresh_world
  = (Returned (-1, Some "timeout"), after_call "size" [StringValue "mylist"])
  /\ getCapacity (failing_executor "timeout") mylist LargeList fresh_world
     = (Returned (-1, Some "timeout"), after_call "get_capacity" [StringValue "mylist"])
  /\ (exists n : Z,
        size (failing_executor "timeout") mylist LargeList fresh_world
        = (Returned (n, Some "timeout"), after_call "size" [StringValue "mylist"])
        /\ n = -1)
  /\ (exists n : Z,
        getCapacity (failing_executor "timeout") mylist LargeList fresh_world
        = (Returned (n, Some "timeout"),
           after_call "get_capacity" [StringValue "mylist"])
        /\ n = -1).
Proof.
  pose proof (fun w' =>
    integer_sentinel_on_error (failing_executor "timeout")
      mylist LargeList fresh_world w' AnyNil "timeout" (-1)) as Hclaim.
  repeat apply conj.
  - destruct (Hclaim (after_call "size" [StringValue "mylist"]))
      as (Hop & _). apply Hop. reflexivity.
  - destruct (Hclaim (after_call "get_capacity" [StringValue "mylist"]))
      as (_ & Hop & _). apply Hop. reflexivity.
  - exists (-1). split; [reflexivity |].
    destruct (Hclaim (after_call "size" [StringValue "mylist"]))
      as (_ & _ & Hop & _). apply Hop. reflexivity.
  - exists (-1). split; [reflexivity |].
    destruct (Hclaim (after_call "get_capacity" [StringValue "mylist"]))
      as (_ & _ & _ & Hop). apply Hop. reflexivity.
Defined.

(** * Further properties of the operations *)

(** Decides an equivalence between "the operation panicked" and a
    description of the reply, once the reply has been split into cases. *)
Ltac panic_cases :=
  simpl; split;
  [ intros [q Hq]; try discriminate Hq;
    repeat apply conj; try reflexivity; try discriminate; intros; discriminate
  | intros (Herr & Hnil & Hshape);
    try discriminate Herr;
    try (exfalso; apply Hnil; reflexivity);
    try (exfalso; eapply Hshape; reflexivity);
    eexists; reflexivity ].

Section Replies.

Context {Client WritePolicy Key GoError Remote : Type}.
Variable backend : Backend Client WritePolicy Key GoError Remote.
Context {T : Type} `{LargeObject T}.

Implicit Types (lo : baseLargeObject Client WritePolicy Key) (ifc : T).
Implicit Types (w : World Client WritePolicy Key Remote).
Implicit Types (e : GoError) (err : error GoError) (ret : GoAny).

(** X1. size panics exactly when the executor reports no error and sends a
    result that is neither nil nor an int. *)
Theorem size_panics_iff lo ifc w w' ret err :
  Execute backend (client lo) (policy lo) (key lo) (packageName ifc)
          "size" [binName lo] w = (Returned (ret, err), w') ->
  (exists q, fst (size backend lo ifc w) = Panicked q)
  <-> (err = None /\ ret <> AnyNil /\ forall i, ret <> AnyInt i).
Proof.
  intros Hexec. unfold size. step_call Hexec.
  destruct err as [e |]; [| destruct ret]; panic_cases.
Qed.

(** X2. getCapacity panics exactly when the executor reports no error and
    sends a result that is not an int; the nil result is one of them. *)
Theorem getCapacity_panics_iff lo ifc w w' ret err :
  Execute backend (client lo) (policy lo) (key lo) (packageName ifc)
          "get_capacity" [binName lo] w = (Returned (ret, err), w') ->
  (exists q, fst (getCapacity backend lo ifc w) = Panicked q)
  <-> (err = None /\ forall i, ret <> AnyInt i).
Proof.
  intros Hexec. unfold getCapacity. step_call Hexec.
  destruct err as [e |]; [| destruct ret]; simpl; split.
  all: try (intros [q Hq]; discriminate Hq).
  all: try (intros [Herr _]; discriminate Herr).
  all: try (intros [_ Hshape]; exfalso; eapply Hshape; reflexivity).
  all: try (intros _; split; [reflexivity | intros; discriminate]).
  all: intros _; eexists; reflexivity.
Qed.

(** X3. getConfig panics exactly when the executor reports no error and
    sends a result that is neither nil nor a map. *)
Theorem getConfig_panics_iff lo ifc w w' ret err :
  Execute backend (client lo) (policy lo) (key lo) (packageName ifc)
          "get_config" [binName lo] w = (Returned (ret, err), w') ->
  (exists q, fst (getConfig backend lo ifc w) = Panicked q)
  <-> (err = None /\ ret <> AnyNil /\ forall m, ret <> AnyMap m).
Proof.
  intros Hexec. unfold getConfig. step_call Hexec.
  destruct err as [e |]; [| destruct ret]; panic_cases.
Qed.

(** X4. scan panics exactly when the executor reports no error and sends a
    result that is neither nil nor a slice. *)
Theorem scan_panics_iff lo ifc w w' ret err :
  Execute backend (client lo) (policy lo) (key lo) (packageName ifc)
          "scan" [binName lo] w = (Returned (ret, err), w') ->
  (exists q, fst (scan backend lo ifc w) = Panicked q)
  <-> (err = None /\ ret <> AnyNil /\ forall l, ret <> AnySlice l).
Proof.
  intros Hexec. unfold scan. step_call Hexec.
  destruct err as [e |]; [| destruct ret]; panic_cases.
Qed.


(** X6. No operation produces an error of its own: when one returns a
    non-nil error, the executor replied to its call with that error. *)
Theorem errors_only_from_executor lo ifc (capacity : Z) w e :
  (fst (destroy backend lo ifc w) = Returned (Some e) ->
   snd (fst (backend (mkExecCall (client lo) (policy lo) (key lo)
                                 (packageName ifc) "destroy" [binName lo])
                     (remote w))) = Some e)
  /\
  (forall n : Z, fst (size backend lo ifc w) = Returned (n, Some e) ->
   snd (fst (backend (mkExecCall (client lo) (policy lo) (key lo)
                                 (packageName ifc) "size" [binName lo])
                     (remote w))) = Some e)
  /\
  (forall m : ConfigMap, fst (getConfig backend lo ifc w) = Returned (m, Some e) ->
   snd (fst (backend (mkExecCall (client lo) (policy lo) (key lo)
                                 (packageName ifc) "get_config" [binName lo])
                     (remote w))) = Some e)
  /\
  (fst (setCapacity backend lo ifc capacity w) = Returned (Some e) ->
   snd (fst (backend (mkExecCall (client lo) (policy lo) (key lo)
                                 (packageName ifc) "set_capacity"
                                 [binName lo; IntegerValue capacity])
                     (remote w))) = Some e)
  /\
  (forall n : Z, fst (getCapacity backend lo ifc w) = Returned (n, Some e) ->
   snd (fst (backend (mkExecCall (client lo) (policy lo) (key lo)
                                 (packageName ifc) "get_capacity" [binName lo])
                     (remote w))) = Some e)
  /\
  (forall l : Slice, fst (scan backend lo ifc w) = Returned (l, Some e) ->
   snd (fst (backend (mkExecCall (client lo) (policy lo) (key lo)
                                 (packageName ifc) "scan" [binName lo])
                     (remote w))) = Some e).
Proof.
  unfold destroy, size, getConfig, setCapacity, getCapacity, scan,
    mbind, Execute, NewIntegerValue.
  repeat apply conj; intros;
    destruct (backend _ (remote w)) as [[ret [e0 |]] r'];
    simpl in *;
    try destruct ret; simpl in *; congruence.
Qed.

(** X7. A well-shaped result is handed over as it is: size and getCapacity
    return the int the executor sent, getConfig the map and scan the slice,
    each with a nil error.  The map and the slice may themselves be nil, so
    scan returns a nil slice when the executor sends one. *)
Theorem results_passed_through lo ifc w :
  (forall w' (i : Z),
      Execute backend (client lo) (policy lo) (key lo) (packageName ifc)
              "size" [binName lo] w = (Returned (AnyInt i, None), w') ->
      size backend lo ifc w = (Returned (i, None), w'))
  /\
  (forall w' (i : Z),
      Execute backend (client lo) (policy lo) (key lo) (packageName ifc)
              "get_capacity" [binName lo] w = (Returned (AnyInt i, None), w') ->
      getCapacity backend lo ifc w = (Returned (i, None), w'))
  /\
  (forall w' (m : ConfigMap),
      Execute backend (client lo) (policy lo) (key lo) (packageName ifc)
              "get_config" [binName lo] w = (Returned (AnyMap m, None), w') ->
      getConfig backend lo ifc w = (Returned (m, None), w'))
  /\
  (forall w' (l : Slice),
      Execute backend (client lo) (policy lo) (key lo) (packageName ifc)
              "scan" [binName lo] w = (Returned (AnySlice l, None), w') ->
      scan backend lo ifc w = (Returned (l, None), w')).
Proof.
  repeat apply conj; intros w' v Hexec.
  - unfold size. step_call Hexec. reflexivity.
  - unfold getCapacity. step_call Hexec. reflexivity.
  - unfold getConfig. step_call Hexec. reflexivity.
  - unfold scan. step_call Hexec. reflexivity.
Qed.

(** X8. On an executor error getConfig returns the nil map and scan the nil
    slice beside the error: the empty slice scan gives for an absent result
    is not what it gives on an error. *)
Theorem nil_collection_on_error lo ifc w e :
  (forall w' ret,
      Execute backend (client lo) (policy lo) (key lo) (packageName ifc)
              "get_config" [binName lo] w = (Returned (ret, Some e), w') ->
      getConfig backend lo ifc w = (Returned (None, Some e), w'))
  /\
  (forall w' ret,
      Execute backend (client lo) (policy lo) (key lo) (packageName ifc)
              "scan" [binName lo] w = (Returned (ret, Some e), w') ->
      scan backend lo ifc w = (Returned (None, Some e), w')
      /\ fst (scan backend lo ifc w) <> Returned (Some [], Some e)).
Proof.
  split; intros w' ret Hexec.
  - unfold getConfig. step_call Hexec. reflexivity.
  - assert (Hrun : scan backend lo ifc w = (Returned (None, Some e), w')).
    { unfold scan. step_call Hexec. reflexivity. }
    split; [exact Hrun |]. rewrite Hrun. simpl. discriminate.
Qed.

(** X9. size and getCapacity treat a reply alike, except the absent one:
    when the executor gives both calls the same reply, other than a nil
    result with a nil error, both operations have the same outcome. *)
Theorem size_getCapacity_agree_unless_absent lo ifc w w1 w2 ret err :
  (ret, err) <> (AnyNil, None) ->
  Execute backend (client lo) (policy lo) (key lo) (packageName ifc)
          "size" [binName lo] w = (Returned (ret, err), w1) ->
  Execute backend (client lo) (policy lo) (key lo) (packageName ifc)
          "get_capacity" [binName lo] w = (Returned (ret, err), w2) ->
  fst (size backend lo ifc w) = fst (getCapacity backend lo ifc w).
Proof.
  intros Hreply Hsize Hcap.
  unfold size, getCapacity. step_call Hsize. step_call Hcap.
  destruct err as [e |]; [reflexivity |].
  destruct ret; try reflexivity.
  exfalso. apply Hreply. reflexivity.
Qed.

(** X10. What an operation does to the world is what its one call does:
    the remote state and the trace after the operation are those the
    executor's call leaves, also when the conversion of the reply panics. *)
Theorem world_after_operation lo ifc (capacity : Z) w :
  snd (destroy backend lo ifc w)
  = snd (Execute backend (client lo) (policy lo) (key lo) (packageName ifc)
                 "destroy" [binName lo] w)
  /\ snd (size backend lo ifc w)
     = snd (Execute backend (client lo) (policy lo) (key lo) (packageName ifc)
                    "size" [binName lo] w)
  /\ snd (getConfig backend lo ifc w)
     = snd (Execute backend (client lo) (policy lo) (key lo) (packageName ifc)
                    "get_config" [binName lo] w)
  /\ snd (setCapacity backend lo ifc capacity w)
     = snd (Execute backend (client lo) (policy lo) (key lo) (packageName ifc)
                    "set_capacity" [binName lo; IntegerValue capacity] w)
  /\ snd (getCapacity backend lo ifc w)
     = snd (Execute backend (client lo) (policy lo) (key lo) (packageName ifc)
                    "get_capacity" [binName lo] w)
  /\ snd (scan backend lo ifc w)
     = snd (Execute backend (client lo) (policy lo) (key lo) (packageName ifc)
                    "scan" [binName lo] w).
Proof.
  unfold destroy, size, getConfig, setCapacity, getCapacity, scan,
    mbind, Execute, NewIntegerValue.
  repeat apply conj;
    destruct (backend _ (remote w)) as [[ret [e0 |]] r'];
    simpl; try destruct ret; reflexivity.
Qed.

End Replies.

Section Handles.

Context {Client WritePolicy Key GoError Remote : Type}.
Variable backend : Backend Client WritePolicy Key GoError Remote.
Context {T : Type} `{LargeObject T}.

Implicit Types (c : Client) (p : WritePolicy) (k : Key) (ifc : T).
Implicit Types (w : World Client WritePolicy Key Remote).

(** X11. The module name of a handle plays no part in any operation: two
    handles that differ only in the module name they were built with give
    the same outcome and leave the same world, operation by operation. *)
Theorem module_name_never_used c p k (bin module1 module2 : string)
        ifc (capacity : Z) w :
  destroy backend (newLargeObject c p k bin module1) ifc w
  = destroy backend (newLargeObject c p k bin module2) ifc w
  /\ size backend (newLargeObject c p k bin module1) ifc w
     = size backend (newLargeObject c p k bin module2) ifc w
  /\ getConfig backend (newLargeObject c p k bin module1) ifc w
     = getConfig backend (newLargeObject c p k bin module2) ifc w
  /\ setCapacity backend (newLargeObject c p k bin module1) ifc capacity w
     = setCapacity backend (newLargeObject c p k bin module2) ifc capacity w
  /\ getCapacity backend (newLargeObject c p k bin module1) ifc w
     = getCapacity backend (newLargeObject c p k bin module2) ifc w
  /\ scan backend (newLargeObject c p k bin module1) ifc w
     = scan backend (newLargeObject c p k bin module2) ifc w.
Proof. repeat apply conj; reflexivity. Qed.

(** X12. The constructor keeps names apart: different module names are
    stored as different values, and so are different bin names. *)
Theorem newLargeObject_names_distinct c p k (bin1 bin2 module1 module2 : string) :
  (module1 <> module2 ->
   userModule (newLargeObject c p k bin1 module1)
   <> userModule (newLargeObject c p k bin1 module2))
  /\
  (bin1 <> bin2 ->
   binName (newLargeObject c p k bin1 module1)
   <> binName (newLargeObject c p k bin2 module1)).
Proof.
  split; intros Hne; simpl.
  - destruct (String.eqb_spec module1 "") as [E1 | N1],
             (String.eqb_spec module2 "") as [E2 | N2];
      unfold NewNullValue, NewStringValue; try discriminate.
    + congruence.
    + intros Heq. inversion Heq. contradiction.
  - unfold NewStringValue. intros Heq. inversion Heq. contradiction.
Qed.

End Handles.

(** ** The further statements at concrete inputs *)

Lemma size_panics_iff_witness :
  Execute misshapen_executor tt tt "rec1" "llist" "size" [StringValue "mylist"]
          fresh_world
  = (Returned (AnyString "seven", None), after_call "size" [StringValue "mylist"])
  /\ exists q, fst (size misshapen_executor mylist LargeList fresh_world) = Panicked q.
Proof.
  split; [reflexivity |].
  eapply size_panics_iff; [reflexivity |].
  repeat apply conj; [reflexivity | discriminate | intros i; discriminate].
Defined.

Lemma getCapacity_panics_iff_witness :
  Execute absent_executor tt tt "rec1" "llist" "get_capacity" [StringValue "mylist"]
          fresh_world
  = (Returned (AnyNil, None), after_call "get_capacity" [StringValue "mylist"])
  /\ exists q, fst (getCapacity absent_executor mylist LargeList fresh_world) = Panicked q.
Proof.
  split; [reflexivity |].
  eapply getCapacity_panics_iff; [reflexivity |].
  split; [reflexivity | intros i; discriminate].
Defined.

Lemma getConfig_panics_iff_witness :
  Execute (constant_executor (AnyInt 7)) tt tt "rec1" "llist" "get_config"
          [StringValue "mylist"] fresh_world
  = (Returned (AnyInt 7, None), after_call "get_config" [StringValue "mylist"])
  /\ exists q,
      fst (getConfig (constant_executor (AnyInt 7)) mylist LargeList fresh_world)
      = Panicked q.
Proof.
  split; [reflexivity |].
  eapply getConfig_panics_iff; [reflexivity |].
  repeat apply conj; [reflexivity | discriminate | intros m; discriminate].
Defined.

Lemma scan_panics_iff_witness :
  Execute (constant_executor (AnyMap None)) tt tt "rec1" "llist" "scan"
          [StringValue "mylist"] fresh_world
  = (Returned (AnyMap None, None), after_call "scan" [StringValue "mylist"])
  /\ exists q,
      fst (scan (constant_executor (AnyMap None)) mylist LargeList fresh_world)
      = Panicked q.
Proof.
  split; [reflexivity |].
  eapply scan_panics_iff; [reflexivity |].
  repeat apply conj; [reflexivity | discriminate | intros l; discriminate].
Defined.

Lemma errors_only_from_executor_witness :
  fst (size (failing_executor "bin not found") mylist LargeList fresh_world)
  = Returned (-1, Some "bin not found")
  /\ snd (fst (failing_executor "bin not found"
                 (mkExecCall tt tt "rec1" "llist" "destroy" [StringValue "mylist"])
                 None)) = Some "bin not found"
  /\ snd (fst (failing_executor "bin not found"
                 (mkExecCall tt tt "rec1" "llist" "size" [StringValue "mylist"])
                 None)) = Some "bin not found"
  /\ snd (fst (failing_executor "bin not found"
                 (mkExecCall tt tt "rec1" "llist" "get_config" [StringValue "mylist"])
                 None)) = Some "bin not found"
  /\ snd (fst (failing_executor "bin not found"
                 (mkExecCall tt tt "rec1" "llist" "set_capacity"
                             [StringValue "mylist"; IntegerValue 100])
                 None)) = Some "bin not found"
  /\ snd (fst (failing_executor "bin not found"
                 (mkExecCall tt tt "rec1" "llist" "get_capacity" [StringValue "mylist"])
                 None)) = Some "bin not found"
  /\ snd (fst (failing_executor "bin not found"
                 (mkExecCall tt tt "rec1" "llist" "scan" [StringValue "mylist"])
                 None)) = Some "bin not found".
Proof.
  destruct (errors_only_from_executor (failing_executor "bin not found")
              mylist LargeList 100 fresh_world "bin not found")
    as (Hdestroy & Hsize & Hconfig & Hset & Hcap & Hscan).
  split; [reflexivity |].
  repeat apply conj.
  - apply Hdestroy. reflexivity.
  - apply (Hsize (-1)). reflexivity.
  - apply (Hconfig None). reflexivity.
  - apply Hset. reflexivity.
  - apply (Hcap (-1)). reflexivity.
  - apply (Hscan None). reflexivity.
Defined.

Lemma results_passed_through_witness :
  size (constant_executor (AnyInt 7)) mylist LargeList fresh_world
  = (Returned (7, None), after_call "size" [StringValue "mylist"])
  /\ getCapacity (constant_executor (AnyInt 7)) mylist LargeList fresh_world
     = (Returned (7, None), after_call "get_capacity" [StringValue "mylist"])
  /\ getConfig (constant_executor (AnyMap (Some [(AnyString "cap", AnyInt 7)])))
               mylist LargeList fresh_world
     = (Returned (Some [(AnyString "cap", AnyInt 7)], None),
        after_call "get_config" [StringValue "mylist"])
  /\ scan (constant_executor (AnySlice None)) mylist LargeList fresh_world
     = (Returned (None, None), after_call "scan" [StringValue "mylist"]).
Proof.
  repeat apply conj.
  - apply (results_passed_through (constant_executor (AnyInt 7))
             mylist LargeList fresh_world). reflexivity.
  - apply (results_passed_through (constant_executor (AnyInt 7))
             mylist LargeList fresh_world). reflexivity.
  - apply (results_passed_through
             (constant_executor (AnyMap (Some [(AnyString "cap", AnyInt 7)])))
             mylist LargeList fresh_world). reflexivity.
  - apply (results_passed_through (constant_executor (AnySlice None))
             mylist LargeList fresh_world). reflexivity.
Defined.

Lemma nil_collection_on_error_witness :
  getConfig (failing_executor "timeout") mylist LargeList fresh_world
  = (Returned (None, Some "timeout"), after_call "get_config" [StringValue "mylist"])
  /\ scan (failing_executor "timeout") mylist LargeList fresh_world
     = (Returned (None, Some "timeout"), after_call "scan" [StringValue "mylist"])
  /\ fst (scan (failing_executor "timeout") mylist LargeList fresh_world)
     <> Returned (Some [], Some "timeout").
Proof.
  destruct (nil_collection_on_error (failing_executor "timeout")
              mylist LargeList fresh_world "timeout") as (Hconfig & Hscan).
  split.
  - apply (Hconfig _ AnyNil). reflexivity.
  - apply (Hscan _ AnyNil). reflexivity.
Defined.

Lemma size_getCapacity_agree_unless_absent_witness :
  (AnyString "seven", @None string) <> (AnyNil, None)
  /\ fst (size misshapen_executor mylist LargeList fresh_world)
     = fst (getCapacity misshapen_executor mylist LargeList fresh_world).
Proof.
  assert (Hreply : (AnyString "seven", @None string) <> (AnyNil, None))
    by discriminate.
  split; [exact Hreply |].
  eapply size_getCapacity_agree_unless_absent;
    [exact Hreply | reflexivity | reflexivity].
Defined.

Lemma newLargeObject_names_distinct_witness :
  userModule (newLargeObject tt tt "rec1" "mylist" "init")
  <> userModule (newLargeObject tt tt "rec1" "mylist" "")
  /\ binName (newLargeObject tt tt "rec1" "mylist" "init")
     <> binName (newLargeObject tt tt "rec1" "" "init").
Proof.
  destruct (newLargeObject_names_distinct tt tt "rec1" "mylist" "" "init" "")
    as (Hmodule & Hbin).
  split.
  - apply Hmodule. discriminate.
  - apply Hbin. discriminate.
Defined.
